(** * The Python MCP client example, [examples/python_mcp_client.py]

    A shallow embedding of the demonstration driver [main] and the
    properties its specification states about it.

    The driver is sequential glue around the [mcp] SDK: it builds the launch
    configuration of the server subprocess, opens the stdio transport and a
    client session (two nested [async with] blocks), performs the handshake,
    lists the tools, and calls three tools with literal arguments, printing
    the first text item of every result.

    The SDK and the server are external.  They are modelled as a
    collaborator the driver is parameterised over: connecting yields a
    [Server], whose answers to the handshake, the listing and the tool
    calls are arbitrary (a value, or a raised exception), and the exits of
    the two context managers re-raise the exception of their block as
    they choose.  Everything that happens in a run is recorded in a trace
    of events. *)

From Stdlib Require Import String Ascii QArith.
From stdpp Require Import gmap strings list fin_maps.

(** ** Python values and printing *)

(** The line-feed character: [print] ends what it writes with it, and the
    three result formats contain it. *)
Definition LF : string := String (ascii_of_nat 10) EmptyString.

(** Values of the argument mappings of [call_tool]: [str] literals and one
    [float] literal ([0.5], a dyadic rational, exactly representable). *)
Inductive PyVal : Type :=
| PyStr (s : string)
| PyFloat (q : Q).

(** Exceptions.  [IndexError] is what [result.content[0]] raises on an empty
    list, [AttributeError] what [.text] raises on an item without a text;
    [SdkError] stands for whatever the transport or session layer raises,
    told apart by its message; [ExceptionGroup] is the group the exit of a
    context manager may put an exception in. *)
#[warnings="-register-all"]
Inductive exn : Type :=
| IndexError
| AttributeError
| SdkError (msg : string)
| ExceptionGroup (msg : string) (excs : list exn).

Inductive outcome (A : Type) : Type :=
| Ok (a : A)
| Raise (e : exn).
Arguments Ok {A} a.
Arguments Raise {A} e.

(** ** The SDK's data, as far as the driver reads it

    The types are the SDK's.  The model keeps the fields the driver reads:
    tools have a name and a description; results have a list of content
    items, of which the text items have a text and the others (images,
    audio, resources) have none. *)

(** [StdioServerParameters(command=..., args=..., env=...)]. *)
Record StdioServerParameters : Type := {
  command : string;
  args : list string;
  env : gmap string string
}.

(** An entry of [tools.tools]: the driver reads [tool.name] and
    [tool.description]. *)
Record Tool : Type := {
  name : string;
  description : string
}.

Record ListToolsResult : Type := {
  tools : list Tool
}.

(** A text item of [result.content]: the driver reads [.text]. *)
Record TextContent : Type := {
  text : string
}.

(** An entry of [result.content]. *)
Inductive ContentBlock : Type :=
| Text (c : TextContent)       (* a text item *)
| NonText (kind : string).     (* an item of another kind: no [.text] *)

Record CallToolResult : Type := {
  content : list ContentBlock
}.

(** A request sent over the session. *)
Inductive Request : Type :=
| ReqInitialize
| ReqListTools
| ReqCallTool (tool : string) (arguments : gmap string PyVal).

(** The server behind the transport: whether [ClientSession.__aenter__]
    succeeds, and its answer to every request.  The answer to a tool call
    may depend on the requests that came before it, so that any sequence
    of answers is the behaviour of some server. *)
Record Server : Type := {
  session_enter : outcome unit;
  initialize : outcome unit;
  list_tools : outcome ListToolsResult;
  call_tool : list Request -> string -> gmap string PyVal -> outcome CallToolResult
}.

(** ** Traces *)

Inductive Event : Type :=
| StdioEnter (p : StdioServerParameters)  (* stdio_client(p).__aenter__ returned *)
| StdioExit                               (* stdio_client(p).__aexit__ *)
| SessionEnter                            (* ClientSession.__aenter__ returned *)
| SessionExit                             (* ClientSession.__aexit__ *)
| Send (r : Request)                      (* a request awaited on the session *)
| Thrown (e : exn)                        (* the SDK raised [e] *)
| Stdout (s : string).                    (* text written to standard output *)

(** Observations of a trace are projections: every event contributes a
    (possibly empty) list of observed items. *)
Definition project {B} (f : Event -> list B) (tr : list Event) : list B :=
  concat (map f tr).

Definition sent_of (ev : Event) : list Request :=
  match ev with Send r => [r] | _ => [] end.

Definition call_of (ev : Event) : list (string * gmap string PyVal) :=
  match ev with Send (ReqCallTool tool arguments) => [(tool, arguments)] | _ => [] end.

Definition thrown_of (ev : Event) : list exn :=
  match ev with Thrown e => [e] | _ => [] end.

Definition exit_of (ev : Event) : list Event :=
  match ev with StdioExit => [StdioExit] | SessionExit => [SessionExit] | _ => [] end.

Definition written_of (ev : Event) : string :=
  match ev with Stdout s => s | _ => EmptyString end.

(** The requests of a trace, in the order they were sent. *)
Definition requests (tr : list Event) : list Request := project sent_of tr.

(** The tool calls of a trace: name and argument mapping. *)
Definition tool_calls (tr : list Event) : list (string * gmap string PyVal) :=
  project call_of tr.

(** The exceptions the SDK raised. *)
Definition thrown (tr : list Event) : list exn := project thrown_of tr.

(** The releases of the two scoped resources. *)
Definition exits (tr : list Event) : list Event := project exit_of tr.

(** Everything a trace wrote to standard output. *)
Definition stdout (tr : list Event) : string :=
  fold_right String.append EmptyString (map written_of tr).

(** What follows the first exception of the SDK. *)
Fixpoint after_thrown (tr : list Event) : list Event :=
  match tr with
  | [] => []
  | Thrown _ :: tr' => tr'
  | _ :: tr' => after_thrown tr'
  end.

(** What follows the (first) call of a tool. *)
Fixpoint after_call (tool : string) (tr : list Event) : list Event :=
  match tr with
  | [] => []
  | Send (ReqCallTool tool' _) :: tr' =>
      if String.eqb tool' tool then tr' else after_call tool tr'
  | _ :: tr' => after_call tool tr'
  end.

(** The number of lines of a text: its line feeds. *)
Fixpoint count_lines (s : string) : nat :=
  match s with
  | EmptyString => 0
  | String c s' => (if Ascii.eqb c (ascii_of_nat 10) then 1 else 0) + count_lines s'
  end.

(** ** The driver's effects: a state and exception monad over the trace *)

Definition M (A : Type) : Type := list Event -> outcome A * list Event.

Definition ret {A} (a : A) : M A := fun tr => (Ok a, tr).

Definition raise {A} (e : exn) : M A := fun tr => (Raise e, tr).

(** Sequencing: a raised exception skips the rest. *)
Definition bind {A B} (m : M A) (k : A -> M B) : M B :=
  fun tr =>
    match m tr with
    | (Ok a, tr') => k a tr'
    | (Raise e, tr') => (Raise e, tr')
    end.

Notation "x <- c1 ;; c2" := (bind c1 (fun x => c2))
  (at level 100, c1 at next level, right associativity).
Notation "c1 ;; c2" := (bind c1 (fun _ => c2))
  (at level 100, right associativity).

Definition emit (ev : Event) : M unit := fun tr => (Ok tt, tr ++ [ev]).

(** What the SDK answers: its value, or its exception, raised in the
    driver (and recorded). *)
Definition sdk {A} (answer : outcome A) : M A :=
  match answer with
  | Ok a => ret a
  | Raise e => emit (Thrown e) ;; raise e
  end.

(** [print(s)]: writes [s] and a line feed. *)
Definition print (s : string) : M unit := emit (Stdout (s +:+ LF)).

(** [for x in xs: body(x)]. *)
Fixpoint for_each {A} (xs : list A) (body : A -> M unit) : M unit :=
  match xs with
  | [] => ret tt
  | x :: xs' => body x ;; for_each xs' body
  end.

(** What the exits of the driver's two context managers re-raise when
    their block is left by an exception.  The managers are the SDK's: the
    exit of a block built on a task group re-raises the exception inside
    an exception group, a plain one hands it on as it is.  Either way the
    exception is not swallowed. *)
Record ContextExits : Type := {
  stdio_aexit : exn -> exn;
  session_aexit : exn -> exn
}.

(** The result of a block, as it leaves the block through an exit. *)
Definition leave {A} (reraise : exn -> exn) (res : outcome A) : outcome A :=
  match res with
  | Ok a => Ok a
  | Raise e => Raise (reraise e)
  end.

(** [async with cm as r: body(r)].  When [__aenter__] raises, the block is
    not entered and [__aexit__] is not called.  Otherwise [__aexit__] runs
    when the body is left, normally or by an exception; in the second case
    the block is left by the exception the exit re-raises. *)
Definition async_with {R A} (aenter : M R) (aexit : Event) (reraise : exn -> exn)
    (body : R -> M A) : M A :=
  fun tr =>
    match aenter tr with
    | (Ok r, tr1) =>
        match body r tr1 with
        | (res, tr2) => (leave reraise res, tr2 ++ [aexit])
        end
    | (Raise e, tr1) => (Raise e, tr1)
    end.

(** ** The SDK's operations *)

(** [os.getenv(key, default)]. *)
Definition getenv (environ : gmap string string) (key default : string) : string :=
  match environ !! key with
  | Some v => v
  | None => default
  end.

Section Driver.

(** The process environment, and [mcp.client.stdio.stdio_client]: for a
    launch configuration, the server it connects to, or the exception
    [__aenter__] raises. *)
Variable environ : gmap string string.
Variable stdio_client : StdioServerParameters -> outcome Server.

(** The exits of [stdio_client] and [ClientSession]. *)
Variable aexit : ContextExits.

Definition stdio_client_enter (p : StdioServerParameters) : M Server :=
  srv <- sdk (stdio_client p) ;;
  emit (StdioEnter p) ;;
  ret srv.

(** [ClientSession(read, write).__aenter__]; the session is the server
    seen through the handshake layer. *)
Definition ClientSession_enter (srv : Server) : M Server :=
  sdk (session_enter srv) ;;
  emit SessionEnter ;;
  ret srv.

Definition session_initialize (session : Server) : M unit :=
  emit (Send ReqInitialize) ;;
  sdk (initialize session).

Definition session_list_tools (session : Server) : M ListToolsResult :=
  emit (Send ReqListTools) ;;
  sdk (list_tools session).

(** [await session.call_tool(tool, arguments=arguments)]: the server sees
    the requests sent so far. *)
Definition session_call_tool (session : Server) (tool : string)
    (arguments : gmap string PyVal) : M CallToolResult :=
  fun tr =>
    (emit (Send (ReqCallTool tool arguments)) ;;
     sdk (call_tool session (requests tr) tool arguments)) tr.

(** [result.content[0].text]. *)
Definition first_text (result : CallToolResult) : M string :=
  match content result with
  | [] => raise IndexError
  | Text c :: _ => ret (text c)
  | NonText _ :: _ => raise AttributeError
  end.

(** ** [main] *)

(** Lines 16-24. *)
Definition server_params : StdioServerParameters :=
  {| command := "cargo";
     args := ["run"; "--release"];
     env := {[ "ETH_RPC_URL" := getenv environ "ETH_RPC_URL" "https://eth.llamarpc.com";
               "PRIVATE_KEY" := getenv environ "PRIVATE_KEY"
                 "0000000000000000000000000000000000000000000000000000000000000001";
               "CHAIN_ID" := "1" ]} |}.

(** The three literal argument mappings (lines 43-45, 53-56, 64-69). *)
Definition get_balance_arguments : gmap string PyVal :=
  {[ "address" := PyStr "0xd8dA6BF26964aF9D7eEd9e03E53415D37aA96045" ]}.

Definition get_token_price_arguments : gmap string PyVal :=
  {[ "token_address" := PyStr "0x1f9840a85d5aF5bf1D1762F925BDADdC4201F984";
     "quote_currency" := PyStr "USD" ]}.

Definition swap_tokens_arguments : gmap string PyVal :=
  {[ "from_token" := PyStr "0xC02aaA39b223FE8D0A0e5C4F27eAD9083C756Cc2";
     "to_token" := PyStr "0xA0b86991c6218b36c1d19D4a2e9Eb0cE3606eB48";
     "amount" := PyStr "1.0";
     "slippage_tolerance" := PyFloat (1 # 2) ]}.

Definition main : M unit :=
  async_with (stdio_client_enter server_params) StdioExit (stdio_aexit aexit)
    (fun transport =>
  async_with (ClientSession_enter transport) SessionExit (session_aexit aexit)
    (fun session =>
    (* Initialize the connection *)
    session_initialize session ;;
    print ("✅ Connected to Ethereum Trading MCP Server" +:+ LF) ;;

    (* List available tools *)
    tools_ <- session_list_tools session ;;
    print "📋 Available tools:" ;;
    for_each (tools tools_) (fun tool =>
      print ("  - " +:+ name tool +:+ ": " +:+ description tool)) ;;
    print EmptyString ;;

    (* Example 1: Get ETH balance *)
    print "🔍 Getting ETH balance..." ;;
    result <- session_call_tool session "get_balance" get_balance_arguments ;;
    t <- first_text result ;;
    print ("Result: " +:+ t +:+ LF) ;;

    (* Example 2: Get token price (UNI in USD) *)
    print "💰 Getting UNI token price in USD..." ;;
    result <- session_call_tool session "get_token_price" get_token_price_arguments ;;
    t <- first_text result ;;
    print ("Result: " +:+ t +:+ LF) ;;

    (* Example 3: Simulate swap (WETH -> USDC) *)
    print "🔄 Simulating token swap (1 WETH -> USDC)..." ;;
    result <- session_call_tool session "swap_tokens" swap_tokens_arguments ;;
    t <- first_text result ;;
    print ("Result: " +:+ t +:+ LF))).

(** A run of the program: [asyncio.run(main())] from the empty trace. *)
Definition run : outcome unit * list Event := main [].

End Driver.

(** ** The responses a run consumes

    The driver sends a fixed script of requests, so what a server
    contributes to a run is its sequence of answers to that script. *)

Record Responses : Type := {
  on_session_enter : outcome unit;
  on_initialize : outcome unit;
  on_list_tools : outcome ListToolsResult;
  on_get_balance : outcome CallToolResult;
  on_get_token_price : outcome CallToolResult;
  on_swap_tokens : outcome CallToolResult
}.

Definition get_balance_request : Request :=
  ReqCallTool "get_balance" get_balance_arguments.
Definition get_token_price_request : Request :=
  ReqCallTool "get_token_price" get_token_price_arguments.
Definition swap_tokens_request : Request :=
  ReqCallTool "swap_tokens" swap_tokens_arguments.

Definition responses (srv : Server) : Responses :=
  {| on_session_enter := session_enter srv;
     on_initialize := initialize srv;
     on_list_tools := list_tools srv;
     on_get_balance :=
       call_tool srv [ReqInitialize; ReqListTools]
         "get_balance" get_balance_arguments;
     on_get_token_price :=
       call_tool srv [ReqInitialize; ReqListTools; get_balance_request]
         "get_token_price" get_token_price_arguments;
     on_swap_tokens :=
       call_tool srv
         [ReqInitialize; ReqListTools; get_balance_request; get_token_price_request]
         "swap_tokens" swap_tokens_arguments |}.

(** What connecting answers: an exception, or a server, seen through its
    responses. *)
Definition connect_responses (stdio_client : StdioServerParameters -> outcome Server)
    (p : StdioServerParameters) : outcome Responses :=
  match stdio_client p with
  | Ok srv => Ok (responses srv)
  | Raise e => Raise e
  end.

(** *** The run as a function of the responses

    [replay] lists, for every sequence of responses, the events of the run
    and its result.  [run_replay] below proves that this is what [main]
    does. *)

Definition Run : Type := outcome unit * list Event.

(** Events, then the rest of the run. *)
Definition after (evs : list Event) (r : Run) : Run := (r.1, evs ++ r.2).

(** A run inside a block, then the exit of the block. *)
Definition finally (reraise : exn -> exn) (r : Run) (evs : list Event) : Run :=
  (leave reraise r.1, r.2 ++ evs).

(** A point where the SDK answers. *)
Definition answered {A} (answer : outcome A) (k : A -> Run) : Run :=
  match answer with
  | Ok a => k a
  | Raise e => (Raise e, [Thrown e])
  end.

(** A point where the driver takes [result.content[0].text]. *)
Definition indexed (result : CallToolResult) (k : string -> Run) : Run :=
  match content result with
  | [] => (Raise IndexError, [])
  | Text c :: _ => k (text c)
  | NonText _ :: _ => (Raise AttributeError, [])
  end.

Definition tool_line (tool : Tool) : string :=
  "  - " +:+ name tool +:+ ": " +:+ description tool.

Definition result_line (t : string) : string := "Result: " +:+ t +:+ LF.

Definition connected_banner : string :=
  "✅ Connected to Ethereum Trading MCP Server" +:+ LF.
Definition tools_header : string := "📋 Available tools:".
Definition get_balance_label : string := "🔍 Getting ETH balance...".
Definition get_token_price_label : string :=
  "💰 Getting UNI token price in USD...".
Definition swap_tokens_label : string :=
  "🔄 Simulating token swap (1 WETH -> USDC)...".

(** What the listing prints for a tool list (lines 34-37). *)
Definition listing_events (ts : list Tool) : list Event :=
  Stdout (tools_header +:+ LF)
  :: map (fun tool => Stdout (tool_line tool +:+ LF)) ts
  ++ [Stdout (EmptyString +:+ LF)].

Definition replay_session (a : Responses) : Run :=
  after [Send ReqInitialize] (answered (on_initialize a) (fun _ =>
  after [Stdout (connected_banner +:+ LF); Send ReqListTools]
    (answered (on_list_tools a) (fun ts =>
  after (listing_events (tools ts)) (
  after [Stdout (get_balance_label +:+ LF); Send get_balance_request]
    (answered (on_get_balance a) (fun result => indexed result (fun t =>
  after [Stdout (result_line t +:+ LF);
         Stdout (get_token_price_label +:+ LF); Send get_token_price_request]
    (answered (on_get_token_price a) (fun result => indexed result (fun t =>
  after [Stdout (result_line t +:+ LF);
         Stdout (swap_tokens_label +:+ LF); Send swap_tokens_request]
    (answered (on_swap_tokens a) (fun result => indexed result (fun t =>
  (Ok tt, [Stdout (result_line t +:+ LF)]))))))))))))))).

Definition replay (aexit : ContextExits) (p : StdioServerParameters)
    (conn : outcome Responses) : Run :=
  answered conn (fun a =>
  after [StdioEnter p] (
  finally (stdio_aexit aexit)
    match on_session_enter a with
    | Raise e => (Raise e, [Thrown e])
    | Ok _ =>
        after [SessionEnter]
          (finally (session_aexit aexit) (replay_session a) [SessionExit])
    end
    [StdioExit])).

(** ** Notions the properties are stated with *)

(** *** The launch configuration *)

(** A launch configuration with one environment entry replaced. *)
Definition set_env (k v : string) (p : StdioServerParameters) : StdioServerParameters :=
  {| command := command p; args := args p; env := <[k:=v]> (env p) |}.

Definition is_hex_digit (c : ascii) : bool :=
  let n := nat_of_ascii c in
  ((48 <=? n) && (n <=? 57)) || ((97 <=? n) && (n <=? 102)) || ((65 <=? n) && (n <=? 70)).

Definition is_decimal_digit (c : ascii) : bool :=
  let n := nat_of_ascii c in (48 <=? n) && (n <=? 57).

Fixpoint all_chars (p : ascii -> bool) (s : string) : bool :=
  match s with
  | EmptyString => true
  | String c s' => p c && all_chars p s'
  end.

(** A private key as the server expects it: 64 hexadecimal digits. *)
Definition is_hex_key (s : string) : bool :=
  all_chars is_hex_digit s && (String.length s =? 64).

(** A numeric identifier: a non-empty string of decimal digits. *)
Definition is_numeric (s : string) : bool :=
  all_chars is_decimal_digit s && negb (String.length s =? 0).

(** *** The tool calls *)

(** The three calls as the source writes them. *)
Definition literal_calls : list (string * gmap string PyVal) :=
  [ ("get_balance", get_balance_arguments);
    ("get_token_price", get_token_price_arguments);
    ("swap_tokens", swap_tokens_arguments) ].

Definition is_Ok {A} (o : outcome A) : bool :=
  match o with Ok _ => true | Raise _ => false end.

(** An answer to a tool call the driver can print: a result whose first
    content item exists and is a text item. *)
Definition usable (answer : outcome CallToolResult) : bool :=
  match answer with
  | Ok result => match content result with Text _ :: _ => true | _ => false end
  | Raise _ => false
  end.

(** How many tool calls a sequence of responses lets the driver reach. *)
Definition calls_issued (conn : outcome Responses) : nat :=
  match conn with
  | Raise _ => 0
  | Ok a =>
      if is_Ok (on_session_enter a) && is_Ok (on_initialize a) && is_Ok (on_list_tools a)
      then if usable (on_get_balance a)
           then if usable (on_get_token_price a) then 3 else 2
           else 1
      else 0
  end.

(** The answer of the script to the call of a tool. *)
Definition answer_to (a : Responses) (tool : string) : option (outcome CallToolResult) :=
  if String.eqb tool "get_balance" then Some (on_get_balance a)
  else if String.eqb tool "get_token_price" then Some (on_get_token_price a)
  else if String.eqb tool "swap_tokens" then Some (on_swap_tokens a)
  else None.

(** *** The listing *)

Definition concat_strings (ss : list string) : string :=
  fold_right String.append EmptyString ss.

(** The line feeds inside the names and descriptions of a tool list. *)
Definition inner_line_feeds (ts : list Tool) : nat :=
  sum_list (map (fun tool => count_lines (name tool) + count_lines (description tool)) ts).

(** *** Mock collaborators *)

Definition is_call (r : Request) : bool :=
  match r with ReqCallTool _ _ => true | _ => false end.

(** A server that connects, lists [ts], and answers its k-th tool call
    with the k-th canned answer. *)
Definition mock_server (ts : list Tool) (answers : list (outcome CallToolResult)) : Server :=
  {| session_enter := Ok tt;
     initialize := Ok tt;
     list_tools := Ok {| tools := ts |};
     call_tool := fun h _ _ =>
       default (Raise (SdkError "no canned response"))
               (answers !! length (List.filter is_call h)) |}.

Definition mock_client (srv : Server) : StdioServerParameters -> outcome Server :=
  fun _ => Ok srv.

Definition text_result (t : string) (more : list ContentBlock) : CallToolResult :=
  {| content := Text {| text := t |} :: more |}.

(** Exits that hand the exception on as it is. *)
Definition pass_on : ContextExits :=
  {| stdio_aexit := fun e => e; session_aexit := fun e => e |}.

(** Exits of blocks built on a task group: the exception is re-raised
    inside an exception group. *)
Definition in_group (e : exn) : exn :=
  ExceptionGroup "unhandled errors in a TaskGroup" [e].

Definition task_group_exits : ContextExits :=
  {| stdio_aexit := in_group; session_aexit := in_group |}.

(** The exception an exception becomes on its way out through the exits
    of the blocks that are left, innermost first. *)
Definition reraise_at (aexit : ContextExits) (e : exn) (ev : Event) : exn :=
  match ev with
  | SessionExit => session_aexit aexit e
  | StdioExit => stdio_aexit aexit e
  | _ => e
  end.

Definition reraised (aexit : ContextExits) (released : list Event) (e : exn) : exn :=
  fold_left (reraise_at aexit) released e.

(** The end-to-end scenario of the specification. *)
Definition scenario (more1 more2 more3 : list ContentBlock) : Server :=
  mock_server [ {| name := "get_balance"; description := "x" |} ]
    [ Ok (text_result "1.5 ETH" more1);
      Ok (text_result "7.23 USD" more2);
      Ok (text_result "ok" more3) ].

(** Three printable answers. *)
Definition canned_answers : list (outcome CallToolResult) :=
  [ Ok (text_result "1.5 ETH" []);
    Ok (text_result "7.23 USD" []);
    Ok (text_result "ok" []) ].

(** A server whose handshake fails. *)
Definition failing_handshake : Server :=
  {| session_enter := Ok tt;
     initialize := Raise (SdkError "handshake failed");
     list_tools := Ok {| tools := [] |};
     call_tool := fun _ _ _ => Ok (text_result "unreachable" []) |}.

(** ** Notions for the further properties *)

(** *** The script of requests *)

(** All the requests of the driver, in the order of the source. *)
Definition script : list Request :=
  [ ReqInitialize; ReqListTools;
    get_balance_request; get_token_price_request; swap_tokens_request ].

(** How many requests a sequence of responses lets the driver send. *)
Definition requests_sent (conn : outcome Responses) : nat :=
  match conn with
  | Raise _ => 0
  | Ok a =>
      if is_Ok (on_session_enter a)
      then if is_Ok (on_initialize a)
           then if is_Ok (on_list_tools a) then 2 + calls_issued conn else 2
           else 1
      else 0
  end.

(** The handshake was reached and succeeded. *)
Definition handshaken (conn : outcome Responses) : bool :=
  match conn with
  | Raise _ => false
  | Ok a => is_Ok (on_session_enter a) && is_Ok (on_initialize a)
  end.

(** Every step of the run gets an answer the driver can go on with. *)
Definition completes (conn : outcome Responses) : bool :=
  match conn with
  | Raise _ => false
  | Ok a =>
      is_Ok (on_session_enter a) && is_Ok (on_initialize a) && is_Ok (on_list_tools a)
      && usable (on_get_balance a) && usable (on_get_token_price a)
      && usable (on_swap_tokens a)
  end.

(** *** The protocol of the two scoped resources *)

Inductive Phase : Type :=
| NotConnected      (* before [stdio_client] is entered *)
| TransportOpen     (* inside the outer block, session not entered *)
| SessionOpen       (* inside both blocks *)
| SessionReleased   (* the inner block is left *)
| Released.         (* both blocks are left *)

(** What an event is allowed to do in a phase.  Requests and prints need
    the open session; the resources are entered outside in and left
    inside out; the SDK raises only before the first release. *)
Definition protocol_step (ph : Phase) (ev : Event) : option Phase :=
  match ph, ev with
  | NotConnected, StdioEnter _ => Some TransportOpen
  | TransportOpen, SessionEnter => Some SessionOpen
  | SessionOpen, Send _ => Some SessionOpen
  | SessionOpen, Stdout _ => Some SessionOpen
  | SessionOpen, SessionExit => Some SessionReleased
  | SessionReleased, StdioExit => Some Released
  | TransportOpen, StdioExit => Some Released
  | NotConnected, Thrown _ => Some NotConnected
  | TransportOpen, Thrown _ => Some TransportOpen
  | SessionOpen, Thrown _ => Some SessionOpen
  | _, _ => None
  end.

Fixpoint scan (ph : Phase) (tr : list Event) : option Phase :=
  match tr with
  | [] => Some ph
  | ev :: tr' =>
      match protocol_step ph ev with
      | Some ph' => scan ph' tr'
      | None => None
      end
  end.

(** A trace obeys the protocol when every event is allowed where it
    occurs and nothing is left open at the end. *)
Definition obeys_protocol (tr : list Event) : bool :=
  match scan NotConnected tr with
  | Some NotConnected | Some Released => true
  | _ => false
  end.

(** *** Content items after the first *)

Definition first_only (answer : outcome CallToolResult) : outcome CallToolResult :=
  match answer with
  | Ok result => Ok {| content := take 1 (content result) |}
  | Raise e => Raise e
  end.

(** The server that answers like [srv], with every result cut down to its
    first content item. *)
Definition first_items (srv : Server) : Server :=
  {| session_enter := session_enter srv;
     initialize := initialize srv;
     list_tools := list_tools srv;
     call_tool := fun h tool arguments => first_only (call_tool srv h tool arguments) |}.

Definition map_client (f : Server -> Server)
    (stdio_client : StdioServerParameters -> outcome Server)
    : StdioServerParameters -> outcome Server :=
  fun p =>
    match stdio_client p with
    | Ok srv => Ok (f srv)
    | Raise e => Raise e
    end.

(** *** The last line printed *)

Fixpoint last_written_from (acc : option string) (tr : list Event) : option string :=
  match tr with
  | [] => acc
  | Stdout s :: tr' => last_written_from (Some s) tr'
  | _ :: tr' => last_written_from acc tr'
  end.

(** The text of the last [print] of a trace. *)
Definition last_written (tr : list Event) : option string :=
  last_written_from None tr.

(** The label the source prints before the call of a tool. *)
Definition label_of (tool : string) : option string :=
  if String.eqb tool "get_balance" then Some "🔍 Getting ETH balance..."
  else if String.eqb tool "get_token_price" then Some "💰 Getting UNI token price in USD..."
  else if String.eqb tool "swap_tokens"
       then Some "🔄 Simulating token swap (1 WETH -> USDC)..."
  else None.

(** *** More mock collaborators *)

(** No server: the subprocess cannot be started. *)
Definition failing_connect : StdioServerParameters -> outcome Server :=
  fun _ => Raise (SdkError "cannot start the server").

(** A server the session cannot be opened on. *)
Definition failing_session : Server :=
  {| session_enter := Raise (SdkError "session failed");
     initialize := Ok tt;
     list_tools := Ok {| tools := [] |};
     call_tool := fun _ _ _ => Ok (text_result "unreachable" []) |}.

(** A server whose tool listing fails. *)
Definition failing_listing : Server :=
  {| session_enter := Ok tt;
     initialize := Ok tt;
     list_tools := Raise (SdkError "listing failed");
     call_tool := fun _ _ _ => Ok (text_result "unreachable" []) |}.

(** ** Basic facts about traces *)

Lemma for_each_print {A} (f : A -> string) (xs : list A) (tr : list Event) :
  for_each xs (fun x => print (f x)) tr
  = (Ok tt, tr ++ map (fun x => Stdout (f x +:+ LF)) xs).
Proof.
  revert tr. induction xs as [|x xs IH]; intros tr; simpl.
  - by rewrite app_nil_r.
  - unfold bind, print, emit at 1. rewrite IH. by rewrite <- app_assoc.
Qed.

Section Projections.

Context {B : Type} (f : Event -> list B).

Lemma project_nil : project f [] = [].
Proof. reflexivity. Qed.

Lemma project_cons (ev : Event) (tr : list Event) :
  project f (ev :: tr) = f ev ++ project f tr.
Proof. reflexivity. Qed.

Lemma project_app (tr1 tr2 : list Event) :
  project f (tr1 ++ tr2) = project f tr1 ++ project f tr2.
Proof. unfold project. by rewrite map_app, concat_app. Qed.

(** A projection that ignores output sees nothing in a run of prints. *)
Hypothesis f_Stdout : forall s, f (Stdout s) = [].

Lemma project_Stdout {A} (g : A -> string) (xs : list A) :
  project f (map (fun x => Stdout (g x)) xs) = [].
Proof.
  induction xs as [|x xs IH]; [done|].
  cbn [map]. by rewrite project_cons, f_Stdout, IH.
Qed.

Lemma project_listing (ts : list Tool) : project f (listing_events ts) = [].
Proof.
  unfold listing_events.
  rewrite project_cons, project_app, project_Stdout, project_cons, project_nil.
  by rewrite !f_Stdout.
Qed.

End Projections.

Lemma requests_app (tr1 tr2 : list Event) :
  requests (tr1 ++ tr2) = requests tr1 ++ requests tr2.
Proof. apply project_app. Qed.

Lemma requests_nil : requests [] = [].
Proof. reflexivity. Qed.

Lemma requests_cons (ev : Event) (tr : list Event) :
  requests (ev :: tr) = sent_of ev ++ requests tr.
Proof. reflexivity. Qed.

Lemma requests_Stdout {A} (g : A -> string) (xs : list A) :
  requests (map (fun x => Stdout (g x)) xs) = [].
Proof. by apply project_Stdout. Qed.

(** *** Execution equations *)

Lemma bind_emit {B} (ev : Event) (k : unit -> M B) (tr : list Event) :
  bind (emit ev) k tr = k tt (tr ++ [ev]).
Proof. reflexivity. Qed.

Lemma bind_print {B} (s : string) (k : unit -> M B) (tr : list Event) :
  bind (print s) k tr = k tt (tr ++ [Stdout (s +:+ LF)]).
Proof. reflexivity. Qed.

Lemma bind_sdk_Ok {A B} (a : A) (k : A -> M B) (tr : list Event) :
  bind (sdk (Ok a)) k tr = k a tr.
Proof. reflexivity. Qed.

Lemma bind_sdk_Raise {A B} (e : exn) (k : A -> M B) (tr : list Event) :
  bind (sdk (Raise e)) k tr = (Raise e, tr ++ [Thrown e]).
Proof. reflexivity. Qed.

Lemma bind_for_each_print {A B} (f : A -> string) (xs : list A)
    (k : unit -> M B) (tr : list Event) :
  bind (for_each xs (fun x => print (f x))) k tr
  = k tt (tr ++ map (fun x => Stdout (f x +:+ LF)) xs).
Proof. unfold bind at 1. by rewrite for_each_print. Qed.

Lemma bind_call_tool {B} (session : Server) (tool : string)
    (arguments : gmap string PyVal) (k : CallToolResult -> M B) (tr : list Event) :
  bind (session_call_tool session tool arguments) k tr
  = bind (sdk (call_tool session (requests tr) tool arguments)) k
      (tr ++ [Send (ReqCallTool tool arguments)]).
Proof. reflexivity. Qed.

Lemma bind_first_text_nil {B} (result : CallToolResult) (k : string -> M B)
    (tr : list Event) :
  content result = [] ->
  bind (first_text result) k tr = (Raise IndexError, tr).
Proof. intros H. unfold first_text. by rewrite H. Qed.

Lemma bind_first_text_cons {B} (result : CallToolResult) (k : string -> M B)
    (tr : list Event) (c : TextContent) (cs : list ContentBlock) :
  content result = Text c :: cs ->
  bind (first_text result) k tr = k (text c) tr.
Proof. intros H. unfold first_text. by rewrite H. Qed.

Lemma bind_first_text_other {B} (result : CallToolResult) (k : string -> M B)
    (tr : list Event) (kind : string) (cs : list ContentBlock) :
  content result = NonText kind :: cs ->
  bind (first_text result) k tr = (Raise AttributeError, tr).
Proof. intros H. unfold first_text. by rewrite H. Qed.

Lemma bind_bind {A B C} (m : M A) (f : A -> M B) (k : B -> M C) (tr : list Event) :
  bind (bind m f) k tr = bind m (fun a => bind (f a) k) tr.
Proof. unfold bind. by destruct (m tr) as [[a|e] tr']. Qed.

Ltac exec :=
  repeat first
    [ rewrite bind_bind
    | rewrite bind_print
    | rewrite bind_emit
    | rewrite bind_for_each_print
    | rewrite bind_call_tool
    | rewrite bind_sdk_Ok
    | rewrite bind_sdk_Raise ].

Ltac history :=
  repeat first
    [ rewrite requests_app | rewrite requests_cons
    | rewrite requests_Stdout | rewrite requests_nil ];
  cbn [sent_of app].

Ltac leaf :=
  unfold after, finally, answered; cbn [fst snd leave];
  unfold listing_events, tool_line, result_line, connected_banner, tools_header,
    get_balance_label, get_token_price_label, swap_tokens_label,
    get_balance_request, get_token_price_request, swap_tokens_request;
  repeat first [ rewrite <- app_assoc | progress cbn [app] ]; reflexivity.

Ltac answer_of call :=
  let result := fresh "result" in
  history; destruct call as [result|?e]; exec; [|leaf];
  cbn [answered]; unfold indexed at 1;
  destruct (content result) as [|[?c|?kind] ?cs] eqn:?Hcontent;
    [ erewrite bind_first_text_nil by eassumption; leaf
    | erewrite bind_first_text_cons by eassumption; exec
    | erewrite bind_first_text_other by eassumption; leaf ].

(** [main] does what [replay] lists. *)
Lemma run_replay (environ : gmap string string)
    (stdio_client : StdioServerParameters -> outcome Server)
    (aexit : ContextExits) :
  run environ stdio_client aexit
  = replay aexit (server_params environ)
      (connect_responses stdio_client (server_params environ)).
Proof.
  unfold run, main, connect_responses, replay, async_with at 1.
  unfold stdio_client_enter.
  destruct (stdio_client (server_params environ)) as [srv|e]; exec; [|done].
  unfold async_with, ClientSession_enter, ret.
  cbn [answered responses on_session_enter].
  destruct (session_enter srv) as [[]|e]; exec; [|done].
  unfold replay_session, session_initialize, session_list_tools.
  cbn [responses on_initialize on_list_tools on_get_balance
       on_get_token_price on_swap_tokens].
  unfold get_balance_request, get_token_price_request, swap_tokens_request.
  exec.
  destruct (initialize srv) as [[]|e]; exec; [|leaf].
  destruct (list_tools srv) as [ts|e]; exec; [|leaf].
  answer_of (call_tool srv [ReqInitialize; ReqListTools]
               "get_balance" get_balance_arguments).
  answer_of (call_tool srv
               [ReqInitialize; ReqListTools;
                ReqCallTool "get_balance" get_balance_arguments]
               "get_token_price" get_token_price_arguments).
  answer_of (call_tool srv
               [ReqInitialize; ReqListTools;
                ReqCallTool "get_balance" get_balance_arguments;
                ReqCallTool "get_token_price" get_token_price_arguments]
               "swap_tokens" swap_tokens_arguments).
  unfold print, emit. leaf.
Qed.

(** *** Case analysis on the responses *)

Ltac case_answer t :=
  match goal with
  | |- context [t] => destruct t as [?|?] eqn:?; cbn [answered]
  | _ => idtac
  end.

Ltac case_content :=
  repeat match goal with
  | |- context [match content ?r with [] => _ | _ :: _ => _ end] =>
      destruct (content r) as [|[?|?] ?] eqn:?
  end.

(** Splits a goal about [replay_session a] into the ways a session can
    go. *)
Ltac session_cases a :=
  unfold replay_session, indexed;
  case_answer (on_initialize a);
  case_answer (on_list_tools a);
  case_answer (on_get_balance a); case_content;
  case_answer (on_get_token_price a); case_content;
  case_answer (on_swap_tokens a); case_content.

Ltac replay_cases a :=
  unfold replay; cbn [answered];
  case_answer (on_session_enter a);
  session_cases a.

Ltac observe :=
  unfold after, finally; cbn [fst snd app leave];
  repeat first [ rewrite <- app_assoc | progress cbn [app] ];
  unfold tool_calls, requests, thrown, exits;
  repeat first
    [ rewrite project_app | rewrite project_cons | rewrite project_nil
    | rewrite project_listing by done ];
  cbn [sent_of call_of thrown_of exit_of app].

Lemma replay_tool_calls (aexit : ContextExits) (p : StdioServerParameters)
    (conn : outcome Responses) :
  tool_calls (replay aexit p conn).2 = take (calls_issued conn) literal_calls.
Proof.
  destruct conn as [a|e]; [|done].
  unfold calls_issued, usable.
  replay_cases a; cbn [is_Ok andb]; observe; reflexivity.
Qed.

Lemma after_thrown_prints {A} (g : A -> string) (xs : list A) (tr : list Event) :
  after_thrown (map (fun x => Stdout (g x)) xs ++ tr) = after_thrown tr.
Proof. induction xs as [|x xs IH]; [done|]. exact IH. Qed.

Lemma after_thrown_listing (ts : list Tool) (tr : list Event) :
  after_thrown (listing_events ts ++ tr) = after_thrown tr.
Proof.
  unfold listing_events. cbn [app after_thrown].
  by rewrite <- app_assoc, after_thrown_prints.
Qed.

Lemma after_call_prints {A} (tool : string) (g : A -> string) (xs : list A)
    (tr : list Event) :
  after_call tool (map (fun x => Stdout (g x)) xs ++ tr) = after_call tool tr.
Proof. induction xs as [|x xs IH]; [done|]. exact IH. Qed.

Lemma after_call_listing (tool : string) (ts : list Tool) (tr : list Event) :
  after_call tool (listing_events ts ++ tr) = after_call tool tr.
Proof.
  unfold listing_events. cbn [app after_call].
  by rewrite <- app_assoc, after_call_prints.
Qed.

(** ** The properties *)

(** *** C1: the tool calls *)

(** C1, as amended.  In every run, whatever the collaborator answers, the
    tool calls the driver issues are an initial segment of the three
    literal calls of the source, in the source's order and with the
    source's argument mappings: no response reaches an argument.  The
    length of the segment is [calls_issued]: all three calls are issued
    exactly when the run reaches the tool phase and each of the first two
    calls returns a result whose first content item exists and is a text
    item; a call that raises, or whose result has an empty content list or
    a first item without a text, ends the run. *)
Theorem tool_calls_follow_literal_script
    (environ : gmap string string)
    (stdio_client : StdioServerParameters -> outcome Server)
    (aexit : ContextExits) :
  tool_calls (run environ stdio_client aexit).2
  = take (calls_issued (connect_responses stdio_client (server_params environ)))
         literal_calls
  /\ literal_calls
    = [ ("get_balance",
         {[ "address" := PyStr "0xd8dA6BF26964aF9D7eEd9e03E53415D37aA96045" ]});
        ("get_token_price",
         {[ "token_address" := PyStr "0x1f9840a85d5aF5bf1D1762F925BDADdC4201F984";
            "quote_currency" := PyStr "USD" ]});
        ("swap_tokens",
         {[ "from_token" := PyStr "0xC02aaA39b223FE8D0A0e5C4F27eAD9083C756Cc2";
            "to_token" := PyStr "0xA0b86991c6218b36c1d19D4a2e9Eb0cE3606eB48";
            "amount" := PyStr "1.0";
            "slippage_tolerance" := PyFloat (1 # 2) ]}) ].
Proof.
  split; [|reflexivity].
  rewrite run_replay. apply replay_tool_calls.
Qed.

(** C1 as stated fails: a run reaches the tool phase, sends [get_balance],
    receives a result with an empty content list, and ends after that one
    call. *)
Lemma three_calls_counterexample :
  let r := run ∅ (mock_client (mock_server [] [Ok {| content := [] |}]))
             task_group_exits in
  tool_calls r.2 = [("get_balance", get_balance_arguments)]
  /\ tool_calls r.2 <> literal_calls.
Proof.
  cbn zeta. rewrite run_replay, replay_tool_calls. split; [reflexivity|].
  discriminate.
Qed.

(** A first item without a text ends the run as an empty list does: here
    after two calls. *)
Lemma non_text_item_ends_run :
  let client :=
    mock_client (mock_server [] [Ok (text_result "1.5 ETH" []);
                                 Ok {| content := [NonText "image"] |}]) in
  let r := run ∅ client task_group_exits in
  tool_calls r.2
  = [("get_balance", get_balance_arguments);
     ("get_token_price", get_token_price_arguments)]
  /\ calls_issued (connect_responses client (server_params ∅)) = 2
  /\ r.1 = Raise (in_group (in_group AttributeError)).
Proof. cbn zeta. rewrite run_replay, replay_tool_calls. repeat split. Qed.

(** *** C3: a failed handshake *)

(** C3.  When the handshake raises, the run ends there: [initialize] is
    the only request it ever sent, there is no tool listing and no tool
    call, and nothing is printed.  The run ends with the exception of the
    handshake, as the exits of the two blocks re-raise it. *)
Theorem handshake_failure_stops_run
    (environ : gmap string string)
    (stdio_client : StdioServerParameters -> outcome Server)
    (aexit : ContextExits)
    (srv : Server) (e : exn) :
  stdio_client (server_params environ) = Ok srv ->
  session_enter srv = Ok tt ->
  initialize srv = Raise e ->
  run environ stdio_client aexit
  = (Raise (stdio_aexit aexit (session_aexit aexit e)),
     [StdioEnter (server_params environ); SessionEnter;
      Send ReqInitialize; Thrown e; SessionExit; StdioExit])
  /\ requests (run environ stdio_client aexit).2 = [ReqInitialize]
  /\ stdout (run environ stdio_client aexit).2 = EmptyString.
Proof.
  intros Hconnect Hsession Hinit.
  assert (run environ stdio_client aexit
          = (Raise (stdio_aexit aexit (session_aexit aexit e)),
             [StdioEnter (server_params environ); SessionEnter;
              Send ReqInitialize; Thrown e; SessionExit; StdioExit])) as ->.
  { rewrite run_replay. unfold connect_responses. rewrite Hconnect.
    unfold replay, replay_session. cbn [answered responses on_session_enter on_initialize].
    by rewrite Hsession, Hinit. }
  done.
Qed.

Lemma handshake_failure_witness :
  requests (run ∅ (mock_client failing_handshake) task_group_exits).2
  = [ReqInitialize].
Proof.
  apply (handshake_failure_stops_run ∅ (mock_client failing_handshake)
           task_group_exits failing_handshake (SdkError "handshake failed"));
    reflexivity.
Defined.

(** *** C4: the scoped resources *)

Lemma replay_session_exits (a : Responses) : exits (replay_session a).2 = [].
Proof. session_cases a; observe; reflexivity. Qed.

(** C4.  Once the transport is acquired, every run releases it exactly
    once, and releases the session exactly once when the session was
    acquired, whichever step the run ends at (normal completion, or an
    exception of the handshake, the listing or any tool call).  The
    releases are the last events of the run, the session before the
    transport. *)
Theorem resources_released_once
    (environ : gmap string string)
    (stdio_client : StdioServerParameters -> outcome Server)
    (aexit : ContextExits)
    (srv : Server) :
  stdio_client (server_params environ) = Ok srv ->
  let released :=
    match session_enter srv with
    | Ok _ => [SessionExit; StdioExit]
    | Raise _ => [StdioExit]
    end in
  exits (run environ stdio_client aexit).2 = released
  /\ released `suffix_of` (run environ stdio_client aexit).2.
Proof.
  intros Hconnect. cbn zeta.
  rewrite run_replay. unfold connect_responses. rewrite Hconnect.
  unfold replay. cbn [answered responses on_session_enter].
  destruct (session_enter srv) as [[]|e].
  - unfold after, finally. cbn [fst snd app].
    rewrite <- app_assoc. cbn [app]. split.
    + unfold exits.
      rewrite !project_cons, project_app.
      fold (exits (replay_session (responses srv)).2).
      by rewrite replay_session_exits.
    + do 2 apply suffix_cons_r. by apply suffix_app_r.
  - split; [reflexivity|].
    unfold after, finally. cbn [fst snd app]. by do 2 apply suffix_cons_r.
Qed.

Lemma resources_released_once_witness :
  exits (run ∅ (mock_client failing_handshake) task_group_exits).2
  = [SessionExit; StdioExit]
  /\ [SessionExit; StdioExit]
     `suffix_of` (run ∅ (mock_client failing_handshake) task_group_exits).2.
Proof.
  apply (resources_released_once ∅ (mock_client failing_handshake)
           task_group_exits failing_handshake).
  reflexivity.
Defined.

(** *** C5: exceptions of the SDK *)

Lemma replay_thrown (aexit : ContextExits) (p : StdioServerParameters)
    (conn : outcome Responses) (e : exn) :
  e ∈ thrown (replay aexit p conn).2 ->
  (replay aexit p conn).1
  = Raise (reraised aexit (exits (replay aexit p conn).2) e)
  /\ thrown (replay aexit p conn).2 = [e]
  /\ after_thrown (replay aexit p conn).2 = exits (replay aexit p conn).2.
Proof.
  destruct conn as [a|e0].
  - replay_cases a; observe;
      cbn [after_thrown]; rewrite ?after_thrown_listing; cbn [after_thrown];
      intros He; first [ by apply elem_of_nil in He | idtac ].
    all: apply list_elem_of_singleton in He as ->; done.
  - cbn. intros He. by apply list_elem_of_singleton in He as ->.
Qed.

(** C5, as amended.  The driver neither catches nor retries an exception
    the SDK raises (while connecting, entering the session, in the
    handshake, the listing or a tool call): it is the only exception of
    the run, and nothing follows it but the releases of the resources
    acquired (no request is sent again, nothing is printed).  The run ends
    with that exception as the exits of the blocks being left re-raise
    it, the session's first: unchanged when no block was entered
    (connecting failed) or when the exits hand it on as it is, inside
    exception groups when the blocks are built on task groups. *)
Theorem sdk_errors_propagate
    (environ : gmap string string)
    (stdio_client : StdioServerParameters -> outcome Server)
    (aexit : ContextExits)
    (e : exn) :
  e ∈ thrown (run environ stdio_client aexit).2 ->
  (run environ stdio_client aexit).1
  = Raise (reraised aexit (exits (run environ stdio_client aexit).2) e)
  /\ thrown (run environ stdio_client aexit).2 = [e]
  /\ after_thrown (run environ stdio_client aexit).2
     = exits (run environ stdio_client aexit).2.
Proof. rewrite run_replay. apply replay_thrown. Qed.

Lemma sdk_errors_propagate_witness :
  let r := run ∅ (mock_client failing_handshake) task_group_exits in
  r.1 = Raise (reraised task_group_exits (exits r.2) (SdkError "handshake failed"))
  /\ thrown r.2 = [SdkError "handshake failed"]
  /\ after_thrown r.2 = exits r.2.
Proof.
  apply (sdk_errors_propagate ∅ (mock_client failing_handshake) task_group_exits
           (SdkError "handshake failed")).
  vm_compute. apply list_elem_of_here.
Defined.

(** With exits that hand the exception on as it is, the exception of the
    SDK is the result of the run, unchanged. *)
Lemma sdk_errors_unchanged_when_passed_on
    (environ : gmap string string)
    (stdio_client : StdioServerParameters -> outcome Server) (e : exn) :
  e ∈ thrown (run environ stdio_client pass_on).2 ->
  (run environ stdio_client pass_on).1 = Raise e.
Proof.
  intros He. rewrite run_replay in *.
  destruct (replay_thrown pass_on _ _ e He) as (-> & _ & _).
  f_equal. generalize (exits (replay pass_on (server_params environ)
                                (connect_responses stdio_client (server_params environ))).2).
  intros released. induction released as [|ev released IH]; [done|].
  cbn [reraised fold_left]. destruct ev; exact IH.
Qed.

(** C5 as stated fails: with exits that re-raise inside exception groups,
    as blocks built on task groups do, the exception of a failed
    handshake leaves [main] inside two nested groups, not unchanged. *)
Lemma sdk_error_regrouped_counterexample :
  let r := run ∅ (mock_client failing_handshake) task_group_exits in
  thrown r.2 = [SdkError "handshake failed"]
  /\ r.1 = Raise (ExceptionGroup "unhandled errors in a TaskGroup"
                   [ExceptionGroup "unhandled errors in a TaskGroup"
                      [SdkError "handshake failed"]])
  /\ r.1 <> Raise (SdkError "handshake failed").
Proof. cbn zeta. rewrite run_replay. repeat split. discriminate. Qed.

(** *** C6: the tool listing *)

Lemma append_String (c : ascii) (a b : string) :
  String c a +:+ b = String c (a +:+ b).
Proof. reflexivity. Qed.

Lemma append_assoc (a b c : string) : (a +:+ b) +:+ c = a +:+ (b +:+ c).
Proof.
  induction a as [|x a IH]; [done|].
  by rewrite !append_String, IH.
Qed.

Lemma count_lines_append (a b : string) :
  count_lines (a +:+ b) = count_lines a + count_lines b.
Proof.
  induction a as [|x a IH]; [done|].
  rewrite append_String. cbn [count_lines]. rewrite IH. lia.
Qed.

Lemma stdout_cons (ev : Event) (tr : list Event) :
  stdout (ev :: tr) = written_of ev +:+ stdout tr.
Proof. reflexivity. Qed.

Lemma stdout_app (tr1 tr2 : list Event) :
  stdout (tr1 ++ tr2) = stdout tr1 +:+ stdout tr2.
Proof.
  induction tr1 as [|ev tr1 IH]; [done|].
  cbn [app]. by rewrite !stdout_cons, IH, append_assoc.
Qed.

Lemma stdout_prints {A} (g : A -> string) (xs : list A) :
  stdout (map (fun x => Stdout (g x)) xs) = concat_strings (map g xs).
Proof.
  induction xs as [|x xs IH]; [done|].
  cbn [map]. rewrite stdout_cons, IH. reflexivity.
Qed.

Lemma stdout_listing (ts : list Tool) :
  stdout (listing_events ts)
  = "📋 Available tools:" +:+ LF
    +:+ concat_strings
          (map (fun tool =>
                  "  - " +:+ name tool +:+ ": " +:+ description tool +:+ LF) ts)
    +:+ LF.
Proof.
  unfold listing_events. rewrite stdout_cons, stdout_app, stdout_prints.
  cbn [written_of]. unfold tools_header. rewrite append_assoc.
  assert (map (fun tool => tool_line tool +:+ LF) ts
          = map (fun tool =>
                   "  - " +:+ name tool +:+ ": " +:+ description tool +:+ LF) ts)
    as ->; [|reflexivity].
  apply map_ext. intros tool. unfold tool_line. by rewrite !append_assoc.
Qed.

Lemma count_lines_listing (ts : list Tool) :
  count_lines (stdout (listing_events ts))
  = 1 + (length ts + inner_line_feeds ts) + 1.
Proof.
  rewrite stdout_listing, !count_lines_append.
  change (count_lines "📋 Available tools:") with 0.
  change (count_lines LF) with 1.
  enough (count_lines
            (concat_strings
               (map (fun tool =>
                       "  - " +:+ name tool +:+ ": " +:+ description tool +:+ LF) ts))
          = length ts + inner_line_feeds ts) as -> by lia.
  unfold inner_line_feeds.
  induction ts as [|tool ts IH]; [done|].
  cbn [map concat_strings fold_right length sum_list sum_list_with].
  fold (concat_strings
          (map (fun tool =>
                  "  - " +:+ name tool +:+ ": " +:+ description tool +:+ LF) ts)).
  rewrite !count_lines_append, IH.
  change (count_lines "  - ") with 0.
  change (count_lines ": ") with 0.
  change (count_lines LF) with 1.
  unfold id. lia.
Qed.

Lemma replay_session_listing (a : Responses) (ts : ListToolsResult) :
  on_initialize a = Ok tt ->
  on_list_tools a = Ok ts ->
  exists rest,
    (replay_session a).2
    = [Send ReqInitialize; Stdout (connected_banner +:+ LF); Send ReqListTools]
      ++ listing_events (tools ts)
      ++ Stdout (get_balance_label +:+ LF) :: Send get_balance_request :: rest.
Proof.
  intros Hinit Hlist. unfold replay_session. rewrite Hinit, Hlist. cbn [answered].
  session_cases a; unfold after; cbn [fst snd app]; eexists; reflexivity.
Qed.

(** C6, as amended.  Whatever tool list the server returns, the empty list
    included, the listing does not fail (the run goes on to the first tool
    call) and prints a header line, then the text [  - name: description]
    of every tool in order, each ended by a line feed, then an empty
    line.  In lines: one for the header, one for every tool and one more
    for every line feed inside its name or description, and the final
    empty line.  So a tool takes exactly one line when its name and
    description contain no line feed. *)
Theorem listing_prints_header_and_tools
    (environ : gmap string string)
    (stdio_client : StdioServerParameters -> outcome Server)
    (aexit : ContextExits)
    (srv : Server) (ts : ListToolsResult) :
  stdio_client (server_params environ) = Ok srv ->
  session_enter srv = Ok tt ->
  initialize srv = Ok tt ->
  list_tools srv = Ok ts ->
  (exists rest,
     (run environ stdio_client aexit).2
     = [StdioEnter (server_params environ); SessionEnter; Send ReqInitialize;
        Stdout (("✅ Connected to Ethereum Trading MCP Server" +:+ LF) +:+ LF);
        Send ReqListTools]
       ++ listing_events (tools ts)
       ++ Stdout ("🔍 Getting ETH balance..." +:+ LF)
          :: Send (ReqCallTool "get_balance" get_balance_arguments) :: rest)
  /\ stdout (listing_events (tools ts))
     = "📋 Available tools:" +:+ LF
       +:+ concat_strings
             (map (fun tool =>
                     "  - " +:+ name tool +:+ ": " +:+ description tool +:+ LF)
                  (tools ts))
       +:+ LF
  /\ count_lines (stdout (listing_events (tools ts)))
     = 1 + (length (tools ts) + inner_line_feeds (tools ts)) + 1.
Proof.
  intros Hconnect Hsession Hinit Hlist.
  split; [|split; [apply stdout_listing | apply count_lines_listing]].
  rewrite run_replay. unfold connect_responses. rewrite Hconnect.
  unfold replay. cbn [answered responses on_session_enter]. rewrite Hsession.
  destruct (replay_session_listing (responses srv) ts Hinit Hlist) as [rest Hrest].
  unfold after, finally. cbn [fst snd]. rewrite Hrest.
  exists (rest ++ [SessionExit; StdioExit]).
  repeat first [ rewrite <- app_assoc | progress cbn [app] ].
  reflexivity.
Qed.

Lemma listing_witness :
  let ts := [ {| name := "get_balance"; description := "x" |};
              {| name := "swap_tokens"; description := "y" |} ] in
  count_lines (stdout (listing_events ts))
  = 1 + (length ts + inner_line_feeds ts) + 1.
Proof.
  apply (listing_prints_header_and_tools ∅
           (mock_client
              (mock_server [ {| name := "get_balance"; description := "x" |};
                             {| name := "swap_tokens"; description := "y" |} ] []))
           task_group_exits
           (mock_server [ {| name := "get_balance"; description := "x" |};
                          {| name := "swap_tokens"; description := "y" |} ] [])
           {| tools := [ {| name := "get_balance"; description := "x" |};
                         {| name := "swap_tokens"; description := "y" |} ] |});
    reflexivity.
Defined.

(** C6 as stated fails: a description of two lines makes the listing print
    two lines for its tool. *)
Lemma one_line_per_tool_counterexample :
  let two_lines :=
    {| name := "swap_tokens";
       description := "Simulates a swap." +:+ LF +:+ "Sends no transaction." |} in
  let out (ts : list Tool) :=
    stdout (run ∅ (mock_client (mock_server ts canned_answers)) task_group_exits).2 in
  stdout (listing_events [two_lines])
  = "📋 Available tools:
  - swap_tokens: Simulates a swap.
Sends no transaction.

"
  /\ count_lines (out [two_lines]) = count_lines (out []) + 2.
Proof. split; vm_compute; reflexivity. Qed.

(** *** C8: the end-to-end scenario *)

(** C8.  With a collaborator that lists the one tool [get_balance] with
    description [x] and answers the three calls with first text items
    [1.5 ETH], [7.23 USD] and [ok], the run completes and prints exactly
    the text below: the three results in this order, each right after the
    label line of its call. *)
Theorem scenario_output
    (environ : gmap string string) (aexit : ContextExits)
    (more1 more2 more3 : list ContentBlock) :
  let r := run environ (mock_client (scenario more1 more2 more3)) aexit in
  r.1 = Ok tt
  /\ stdout r.2
     = "✅ Connected to Ethereum Trading MCP Server

📋 Available tools:
  - get_balance: x

🔍 Getting ETH balance...
Result: 1.5 ETH

💰 Getting UNI token price in USD...
Result: 7.23 USD

🔄 Simulating token swap (1 WETH -> USDC)...
Result: ok

"
  /\ exists s0 s1 s2 s3,
       stdout r.2
       = s0 +:+ ("🔍 Getting ETH balance..." +:+ LF +:+ "Result: 1.5 ETH" +:+ LF)
         +:+ s1 +:+ ("💰 Getting UNI token price in USD..." +:+ LF
                     +:+ "Result: 7.23 USD" +:+ LF)
         +:+ s2 +:+ ("🔄 Simulating token swap (1 WETH -> USDC)..." +:+ LF
                     +:+ "Result: ok" +:+ LF)
         +:+ s3.
Proof.
  cbn zeta. rewrite run_replay.
  split; [reflexivity|]. split; [reflexivity|].
  exists ("✅ Connected to Ethereum Trading MCP Server" +:+ LF +:+ LF
          +:+ "📋 Available tools:" +:+ LF +:+ "  - get_balance: x" +:+ LF +:+ LF),
         LF, LF, LF.
  reflexivity.
Qed.

(** *** C9: results with an empty content list *)

Lemma after_call_skip (tool : string) (ev : Event) (tr : list Event) :
  call_of ev = [] -> after_call tool (ev :: tr) = after_call tool tr.
Proof. destruct ev as [| | | |[]| |]; done. Qed.

Lemma after_call_hit (tool : string) (arguments : gmap string PyVal)
    (tr : list Event) :
  after_call tool (Send (ReqCallTool tool arguments) :: tr) = tr.
Proof. cbn [after_call]. by rewrite String.eqb_refl. Qed.

Lemma after_call_miss (tool tool' : string) (arguments : gmap string PyVal)
    (tr : list Event) :
  tool' <> tool ->
  after_call tool (Send (ReqCallTool tool' arguments) :: tr) = after_call tool tr.
Proof.
  intros Hne. cbn [after_call].
  by destruct (String.eqb_spec tool' tool).
Qed.

Ltac seek :=
  unfold get_balance_request, get_token_price_request, swap_tokens_request;
  repeat first
    [ rewrite after_call_listing
    | rewrite after_call_hit
    | rewrite after_call_miss by discriminate
    | rewrite after_call_skip by reflexivity ].

Ltac not_issued H :=
  repeat (apply elem_of_cons in H as [H|H]; [discriminate H|]);
  by apply elem_of_nil in H.

Lemma replay_answer (aexit : ContextExits) (p : StdioServerParameters)
    (a : Responses) (tool : string) (result : CallToolResult) :
  tool ∈ map fst (tool_calls (replay aexit p (Ok a)).2) ->
  answer_to a tool = Some (Ok result) ->
  match content result with
  | [] =>
      (forall tr0, first_text result tr0 = (Raise IndexError, tr0))
      /\ thrown (replay aexit p (Ok a)).2 = []
      /\ after_call tool (replay aexit p (Ok a)).2 = exits (replay aexit p (Ok a)).2
      /\ (replay aexit p (Ok a)).1
         = Raise (reraised aexit (exits (replay aexit p (Ok a)).2) IndexError)
  | Text c :: _ =>
      exists rest,
        after_call tool (replay aexit p (Ok a)).2
        = Stdout (("Result: " +:+ text c +:+ LF) +:+ LF) :: rest
  | NonText _ :: _ =>
      after_call tool (replay aexit p (Ok a)).2 = exits (replay aexit p (Ok a)).2
      /\ (replay aexit p (Ok a)).1
         = Raise (reraised aexit (exits (replay aexit p (Ok a)).2) AttributeError)
  end.
Proof.
  unfold answer_to.
  destruct (String.eqb_spec tool "get_balance") as [->|_];
    [|destruct (String.eqb_spec tool "get_token_price") as [->|_];
      [|destruct (String.eqb_spec tool "swap_tokens") as [->|_]; [|done]]].
  all: replay_cases a; observe; cbn [map fst]; intros Hissued;
    try (not_issued Hissued); clear Hissued.
  all: intros [= <-]; try congruence.
  all: repeat match goal with
       | H1 : content ?r = _ :: _, H2 : content ?r = _ :: _ |- _ =>
           rewrite H1 in H2; injection H2 as <- <-
       end.
  all: seek; cbn [reraised fold_left reraise_at].
  all: first
    [ by eexists
    | by split
    | split;
      [ intros tr0; unfold first_text;
        match goal with H : content _ = [] |- _ => by rewrite H end
      | done ] ].
Qed.

(** C9.  Take a tool call the run issued and to which the server answered
    with a result.  When the content list of the result is empty, taking
    its first item raises [IndexError]: the SDK raised nothing, nothing
    happens after the call but the releases of the resources (nothing is
    printed for the result, no later call is sent), and the run ends with
    that [IndexError], as the exits of the two blocks re-raise it.  When
    the first item is a text item, the first thing after the call is the
    print of the result line with its text.  When the first item has no
    text, the run ends likewise, with [AttributeError].  So a result line
    is printed only for a result with a non-empty content list. *)
Theorem empty_content_raises
    (environ : gmap string string)
    (stdio_client : StdioServerParameters -> outcome Server)
    (aexit : ContextExits)
    (srv : Server) (tool : string) (result : CallToolResult) :
  stdio_client (server_params environ) = Ok srv ->
  tool ∈ map fst (tool_calls (run environ stdio_client aexit).2) ->
  answer_to (responses srv) tool = Some (Ok result) ->
  match content result with
  | [] =>
      (forall tr0, first_text result tr0 = (Raise IndexError, tr0))
      /\ thrown (run environ stdio_client aexit).2 = []
      /\ after_call tool (run environ stdio_client aexit).2
         = exits (run environ stdio_client aexit).2
      /\ (run environ stdio_client aexit).1
         = Raise (reraised aexit (exits (run environ stdio_client aexit).2) IndexError)
  | Text c :: _ =>
      exists rest,
        after_call tool (run environ stdio_client aexit).2
        = Stdout (("Result: " +:+ text c +:+ LF) +:+ LF) :: rest
  | NonText _ :: _ =>
      after_call tool (run environ stdio_client aexit).2
      = exits (run environ stdio_client aexit).2
      /\ (run environ stdio_client aexit).1
         = Raise (reraised aexit (exits (run environ stdio_client aexit).2)
                    AttributeError)
  end.
Proof.
  intros Hconnect. rewrite run_replay. unfold connect_responses.
  rewrite Hconnect. apply replay_answer.
Qed.

Lemma empty_content_witness :
  let r := run ∅ (mock_client
                    (mock_server [] [Ok (text_result "1.5 ETH" []);
                                     Ok (text_result "7.23 USD" []);
                                     Ok {| content := [] |}]))
             task_group_exits in
  (forall tr0, first_text {| content := [] |} tr0 = (Raise IndexError, tr0))
  /\ thrown r.2 = []
  /\ after_call "swap_tokens" r.2 = exits r.2
  /\ r.1 = Raise (reraised task_group_exits (exits r.2) IndexError).
Proof.
  apply (empty_content_raises ∅
           (mock_client
              (mock_server [] [Ok (text_result "1.5 ETH" []);
                               Ok (text_result "7.23 USD" []);
                               Ok {| content := [] |}]))
           task_group_exits
           (mock_server [] [Ok (text_result "1.5 ETH" []);
                            Ok (text_result "7.23 USD" []);
                            Ok {| content := [] |}])
           "swap_tokens" {| content := [] |}).
  - reflexivity.
  - vm_compute. do 2 apply list_elem_of_further. apply list_elem_of_here.
  - reflexivity.
Defined.

(** *** C10: determinism *)

(** C10.  Two runs that see the same values of the two environment
    variables the driver reads, and receive the same responses (to
    connecting, entering the session, the handshake, the listing and the
    three calls), build the same launch configuration, and are the same
    run: same result, same events, hence the same requests and the same
    printed output.  Neither other environment variables nor what the
    server would have answered off the script matter. *)
Theorem run_deterministic
    (environ1 environ2 : gmap string string)
    (client1 client2 : StdioServerParameters -> outcome Server)
    (aexit : ContextExits) :
  environ1 !! "ETH_RPC_URL" = environ2 !! "ETH_RPC_URL" ->
  environ1 !! "PRIVATE_KEY" = environ2 !! "PRIVATE_KEY" ->
  connect_responses client1 (server_params environ1)
  = connect_responses client2 (server_params environ2) ->
  server_params environ1 = server_params environ2
  /\ run environ1 client1 aexit = run environ2 client2 aexit
  /\ requests (run environ1 client1 aexit).2 = requests (run environ2 client2 aexit).2
  /\ stdout (run environ1 client1 aexit).2 = stdout (run environ2 client2 aexit).2.
Proof.
  intros Hurl Hkey Hresponses.
  assert (server_params environ1 = server_params environ2) as Hparams.
  { unfold server_params, getenv. by rewrite Hurl, Hkey. }
  assert (run environ1 client1 aexit = run environ2 client2 aexit) as Hrun.
  { by rewrite !run_replay, Hresponses, Hparams. }
  by rewrite Hrun.
Qed.

Lemma run_deterministic_witness :
  let environ1 : gmap string string := {[ "HOME" := "/root" ]} in
  let environ2 : gmap string string := {[ "CHAIN_ID" := "5"; "LANG" := "C" ]} in
  let client1 := mock_client (scenario [] [] []) in
  let client2 :=
    mock_client
      (mock_server [ {| name := "get_balance"; description := "x" |} ]
         (canned_answers ++ [Raise (SdkError "never asked")])) in
  server_params environ1 = server_params environ2
  /\ run environ1 client1 task_group_exits = run environ2 client2 task_group_exits
  /\ requests (run environ1 client1 task_group_exits).2
     = requests (run environ2 client2 task_group_exits).2
  /\ stdout (run environ1 client1 task_group_exits).2
     = stdout (run environ2 client2 task_group_exits).2.
Proof.
  apply (run_deterministic
           {[ "HOME" := "/root" ]} {[ "CHAIN_ID" := "5"; "LANG" := "C" ]}
           (mock_client (scenario [] [] []))
           (mock_client
              (mock_server [ {| name := "get_balance"; description := "x" |} ]
                 (canned_answers ++ [Raise (SdkError "never asked")])))
           task_group_exits);
    vm_compute; reflexivity.
Defined.

(** *** C2 and C7: the launch configuration *)

Lemma getenv_default (environ : gmap string string) (key d : string) :
  getenv environ key d = default d (environ !! key).
Proof. unfold getenv. by destruct (environ !! key). Qed.

Lemma server_params_insert (environ : gmap string string) (k v : string) :
  server_params (<[k:=v]> environ)
  = if decide (k = "ETH_RPC_URL" \/ k = "PRIVATE_KEY")
    then set_env k v (server_params environ)
    else server_params environ.
Proof.
  unfold server_params, set_env, getenv. cbn [command args env].
  case_decide as Hk.
  - f_equal. destruct Hk as [-> | ->].
    + rewrite lookup_insert_eq, lookup_insert_ne by done.
      by rewrite insert_insert_eq.
    + rewrite lookup_insert_eq, lookup_insert_ne by done.
      rewrite (insert_insert_ne _ "PRIVATE_KEY" "ETH_RPC_URL") by done.
      by rewrite insert_insert_eq.
  - rewrite !lookup_insert_ne by (intros ->; apply Hk; auto). done.
Qed.

Lemma server_params_env_lookup (environ : gmap string string) :
  env (server_params environ) !! "ETH_RPC_URL"
  = Some (default "https://eth.llamarpc.com" (environ !! "ETH_RPC_URL"))
  /\ env (server_params environ) !! "PRIVATE_KEY"
     = Some (default "0000000000000000000000000000000000000000000000000000000000000001"
                     (environ !! "PRIVATE_KEY"))
  /\ env (server_params environ) !! "CHAIN_ID" = Some "1".
Proof.
  unfold server_params. cbn [env]. rewrite !getenv_default.
  split; [|split].
  - by rewrite lookup_insert_eq.
  - by rewrite lookup_insert_ne, lookup_insert_eq.
  - by rewrite !lookup_insert_ne, lookup_singleton_eq.
Qed.

(** C2, as amended.  The launch configuration embeds the values of the
    environment variables [ETH_RPC_URL] and [PRIVATE_KEY] when they are
    set and their literal defaults when they are not; setting one of the
    two changes exactly its entry of the configuration and nothing else.
    The chain id is not read from the environment: the configuration
    always embeds the literal ["1"], and setting [CHAIN_ID], like setting
    any other variable, changes nothing. *)
Theorem environment_overrides (environ : gmap string string) (k v : string) :
  (env (server_params environ) !! "ETH_RPC_URL"
   = Some (default "https://eth.llamarpc.com" (environ !! "ETH_RPC_URL"))
   /\ env (server_params environ) !! "PRIVATE_KEY"
      = Some (default "0000000000000000000000000000000000000000000000000000000000000001"
                      (environ !! "PRIVATE_KEY"))
   /\ env (server_params environ) !! "CHAIN_ID" = Some "1")
  /\ server_params (<[k:=v]> environ)
     = (if decide (k = "ETH_RPC_URL" \/ k = "PRIVATE_KEY")
        then set_env k v (server_params environ)
        else server_params environ)
  /\ server_params (<["CHAIN_ID":=v]> environ) = server_params environ.
Proof.
  split; [apply server_params_env_lookup|].
  split; [apply server_params_insert|].
  rewrite server_params_insert. by case_decide as H; [destruct H|].
Qed.

(** C2 as stated fails: with [CHAIN_ID] set to ["5"], the configuration
    still embeds ["1"]. *)
Lemma chain_id_override_counterexample :
  let environ : gmap string string := {[ "CHAIN_ID" := "5" ]} in
  environ !! "CHAIN_ID" = Some "5"
  /\ env (server_params environ) !! "CHAIN_ID" = Some "1"
  /\ env (server_params environ) !! "CHAIN_ID" <> environ !! "CHAIN_ID".
Proof. cbn zeta. split; [|split]; [vm_compute; reflexivity ..|]. vm_compute. discriminate. Qed.

(** C7, as amended.  In every run the launch configuration has the command
    [cargo] with the arguments [run --release], and its environment
    mapping has exactly the three entries [ETH_RPC_URL], [PRIVATE_KEY] and
    [CHAIN_ID].  The chain id is the numeric literal ["1"].  The RPC URL
    and the private key are the values of the process environment when
    set, passed on as they are, and otherwise the defaults; the default
    private key is a string of 64 hexadecimal digits. *)
Theorem launch_configuration (environ : gmap string string) :
  command (server_params environ) = "cargo"
  /\ args (server_params environ) = ["run"; "--release"]
  /\ dom (env (server_params environ))
     = ({[ "ETH_RPC_URL"; "PRIVATE_KEY"; "CHAIN_ID" ]} : gset string)
  /\ size (env (server_params environ)) = 3
  /\ env (server_params environ) !! "ETH_RPC_URL"
     = Some (default "https://eth.llamarpc.com" (environ !! "ETH_RPC_URL"))
  /\ env (server_params environ) !! "PRIVATE_KEY"
     = Some (default "0000000000000000000000000000000000000000000000000000000000000001"
                     (environ !! "PRIVATE_KEY"))
  /\ env (server_params environ) !! "CHAIN_ID" = Some "1"
  /\ is_numeric "1" = true
  /\ is_hex_key "0000000000000000000000000000000000000000000000000000000000000001"
     = true.
Proof.
  split; [reflexivity|]. split; [reflexivity|].
  split; [|split].
  - unfold server_params. cbn [env].
    rewrite !dom_insert_L, dom_singleton_L. set_solver.
  - unfold server_params. cbn [env].
    rewrite !map_size_insert_None, map_size_singleton; [done|..].
    + by rewrite lookup_singleton_ne.
    + by rewrite lookup_insert_ne, lookup_singleton_ne.
  - destruct (server_params_env_lookup environ) as (-> & -> & ->).
    repeat split; reflexivity.
Qed.

(** C7 as stated fails: a [PRIVATE_KEY] of the environment is embedded as
    it is, hexadecimal or not, 64 characters or not. *)
Lemma private_key_counterexample :
  let environ : gmap string string := {[ "PRIVATE_KEY" := "not-a-key" ]} in
  env (server_params environ) !! "PRIVATE_KEY" = Some "not-a-key"
  /\ is_hex_key "not-a-key" = false
  /\ all_chars is_hex_digit "not-a-key" = false
  /\ String.length "not-a-key" <> 64.
Proof. cbn zeta. repeat split; try (vm_compute; reflexivity). vm_compute. discriminate. Qed.

(** ** Further properties of [main] *)

(** *** The order of the requests *)

Lemma replay_requests (aexit : ContextExits) (p : StdioServerParameters) (conn : outcome Responses) :
  requests (replay aexit p conn).2 = take (requests_sent conn) script.
Proof.
  destruct conn as [a|e]; [|done].
  unfold requests_sent, calls_issued, usable.
  replay_cases a; cbn [is_Ok andb]; observe; reflexivity.
Qed.

(** X1.  The requests of a run are an initial segment of the script
    [initialize], [list_tools], [get_balance], [get_token_price],
    [swap_tokens]: the handshake is the first request of every run that
    sends one, the listing the second, and no request is sent twice or
    out of order, whatever the server answers. *)
Theorem requests_follow_script
    (environ : gmap string string)
    (stdio_client : StdioServerParameters -> outcome Server)
    (aexit : ContextExits) :
  requests (run environ stdio_client aexit).2
  = take (requests_sent (connect_responses stdio_client (server_params environ)))
         script
  /\ requests (run environ stdio_client aexit).2 `prefix_of` script.
Proof.
  rewrite run_replay, replay_requests. split; [reflexivity|].
  apply prefix_take.
Qed.

(** *** Failures before the tool calls *)

(** X2.  When the server cannot be connected to, the run ends with the
    exception raised and did nothing else: no resource was acquired or
    released, no request was sent, nothing was printed. *)
Theorem connect_failure_does_nothing
    (environ : gmap string string)
    (stdio_client : StdioServerParameters -> outcome Server)
    (aexit : ContextExits) (e : exn) :
  stdio_client (server_params environ) = Raise e ->
  run environ stdio_client aexit = (Raise e, [Thrown e]).
Proof.
  intros Hconnect. rewrite run_replay. unfold connect_responses.
  by rewrite Hconnect.
Qed.

Lemma connect_failure_witness :
  run ∅ failing_connect task_group_exits
  = (Raise (SdkError "cannot start the server"),
     [Thrown (SdkError "cannot start the server")]).
Proof.
  apply (connect_failure_does_nothing ∅ failing_connect task_group_exits
           (SdkError "cannot start the server")).
  reflexivity.
Defined.

(** X3.  When entering the session raises, the transport, already
    acquired, is released once; no request was sent (the handshake is not
    attempted) and nothing was printed.  The run ends with the exception
    of the session as the exit of the transport re-raises it. *)
Theorem session_failure_releases_transport
    (environ : gmap string string)
    (stdio_client : StdioServerParameters -> outcome Server)
    (aexit : ContextExits)
    (srv : Server) (e : exn) :
  stdio_client (server_params environ) = Ok srv ->
  session_enter srv = Raise e ->
  run environ stdio_client aexit
  = (Raise (stdio_aexit aexit e),
     [StdioEnter (server_params environ); Thrown e; StdioExit]).
Proof.
  intros Hconnect Hsession. rewrite run_replay. unfold connect_responses.
  rewrite Hconnect. unfold replay. cbn [answered responses on_session_enter].
  by rewrite Hsession.
Qed.

Lemma session_failure_witness :
  run ∅ (mock_client failing_session) task_group_exits
  = (Raise (ExceptionGroup "unhandled errors in a TaskGroup"
              [SdkError "session failed"]),
     [StdioEnter (server_params ∅); Thrown (SdkError "session failed"); StdioExit]).
Proof.
  apply (session_failure_releases_transport ∅ (mock_client failing_session)
           task_group_exits failing_session (SdkError "session failed"));
    reflexivity.
Defined.

(** X4.  When the tool listing raises, the run ends after the handshake
    and the listing request: no tool is called, and the output is the
    connection banner alone (no header of the listing).  The run ends
    with the exception of the listing as the exits of the two blocks
    re-raise it. *)
Theorem listing_failure_stops_run
    (environ : gmap string string)
    (stdio_client : StdioServerParameters -> outcome Server)
    (aexit : ContextExits)
    (srv : Server) (e : exn) :
  stdio_client (server_params environ) = Ok srv ->
  session_enter srv = Ok tt ->
  initialize srv = Ok tt ->
  list_tools srv = Raise e ->
  (run environ stdio_client aexit).1
  = Raise (stdio_aexit aexit (session_aexit aexit e))
  /\ requests (run environ stdio_client aexit).2 = [ReqInitialize; ReqListTools]
  /\ tool_calls (run environ stdio_client aexit).2 = []
  /\ stdout (run environ stdio_client aexit).2
     = "✅ Connected to Ethereum Trading MCP Server" +:+ LF +:+ LF.
Proof.
  intros Hconnect Hsession Hinit Hlist.
  rewrite run_replay. unfold connect_responses. rewrite Hconnect.
  unfold replay, replay_session.
  cbn [answered responses on_session_enter on_initialize on_list_tools].
  rewrite Hsession, Hinit, Hlist. cbn [answered].
  repeat split; reflexivity.
Qed.

Lemma listing_failure_witness :
  let r := run ∅ (mock_client failing_listing) task_group_exits in
  r.1 = Raise (in_group (in_group (SdkError "listing failed")))
  /\ requests r.2 = [ReqInitialize; ReqListTools]
  /\ tool_calls r.2 = []
  /\ stdout r.2 = "✅ Connected to Ethereum Trading MCP Server" +:+ LF +:+ LF.
Proof.
  apply (listing_failure_stops_run ∅ (mock_client failing_listing)
           task_group_exits failing_listing (SdkError "listing failed"));
    reflexivity.
Defined.

(** *** The protocol of the resources *)

Lemma scan_prints {A} (g : A -> string) (xs : list A) (tr : list Event) :
  scan SessionOpen (map (fun x => Stdout (g x)) xs ++ tr) = scan SessionOpen tr.
Proof. induction xs as [|x xs IH]; [done|]. exact IH. Qed.

Lemma scan_listing (ts : list Tool) (tr : list Event) :
  scan SessionOpen (listing_events ts ++ tr) = scan SessionOpen tr.
Proof.
  unfold listing_events. cbn [app scan protocol_step].
  by rewrite <- app_assoc, scan_prints.
Qed.

Lemma replay_obeys_protocol (aexit : ContextExits) (p : StdioServerParameters) (conn : outcome Responses) :
  obeys_protocol (replay aexit p conn).2 = true.
Proof.
  unfold obeys_protocol.
  destruct conn as [a|e]; [|done].
  replay_cases a; unfold after, finally; cbn [fst snd app];
    repeat first [ rewrite <- app_assoc | progress cbn [app] ];
    cbn [scan protocol_step]; rewrite ?scan_listing; reflexivity.
Qed.

(** X5.  Every run obeys the protocol of its two scoped resources: the
    transport is entered before the session; every request and every
    print happens while the session is open (never before it is entered,
    never after it is released); the session is released before the
    transport; and at the end nothing is left open. *)
Theorem run_obeys_protocol
    (environ : gmap string string)
    (stdio_client : StdioServerParameters -> outcome Server)
    (aexit : ContextExits) :
  obeys_protocol (run environ stdio_client aexit).2 = true.
Proof. rewrite run_replay. apply replay_obeys_protocol. Qed.

Lemma protocol_rejects_use_after_release (p : StdioServerParameters) :
  obeys_protocol
    [StdioEnter p; SessionEnter; SessionExit; Send ReqInitialize; StdioExit] = false
  /\ obeys_protocol [StdioEnter p; SessionEnter; Send ReqInitialize; SessionExit] = false
  /\ obeys_protocol [StdioEnter p; Stdout LF; StdioExit] = false.
Proof. repeat split; reflexivity. Qed.

(** *** What the environment can influence *)




(** *** Runs that complete *)

Lemma replay_completes (aexit : ContextExits) (p : StdioServerParameters)
    (conn : outcome Responses) :
  is_Ok (replay aexit p conn).1 = completes conn.
Proof.
  destruct conn as [a|e]; [|done].
  unfold completes, usable.
  replay_cases a; cbn [is_Ok andb]; reflexivity.
Qed.

(** X7.  A run completes normally exactly when every step is answered
    well: the server is connected to, the session entered, the handshake
    and the listing succeed, and each of the three calls returns a result
    whose first content item exists and is a text item.  In every other
    case (an exception of the SDK, an empty content list, a first item
    without a text) [main] raises, whatever the exits re-raise. *)
Theorem run_completes_iff
    (environ : gmap string string)
    (stdio_client : StdioServerParameters -> outcome Server)
    (aexit : ContextExits) :
  is_Ok (run environ stdio_client aexit).1
  = completes (connect_responses stdio_client (server_params environ)).
Proof. rewrite run_replay. apply replay_completes. Qed.

Lemma append_empty_r (a : string) : a +:+ EmptyString = a.
Proof. induction a as [|x a IH]; [done|]. by rewrite append_String, IH. Qed.

Lemma stdout_nil : stdout [] = EmptyString.
Proof. reflexivity. Qed.

(** X8.  The output of a run that completes, for any tool list and any
    results whose first content item is a text item: the banner and an
    empty line; the listing; then for each of the three calls, in the
    order of the source, the label line, the line [Result: ] with the
    text of the first content item, and an empty line.  Nothing else is
    printed. *)
Theorem complete_run_output
    (environ : gmap string string)
    (stdio_client : StdioServerParameters -> outcome Server)
    (aexit : ContextExits)
    (srv : Server) (ts : ListToolsResult)
    (r1 r2 r3 : CallToolResult) (c1 c2 c3 : TextContent)
    (more1 more2 more3 : list ContentBlock) :
  stdio_client (server_params environ) = Ok srv ->
  responses srv
  = {| on_session_enter := Ok tt; on_initialize := Ok tt;
       on_list_tools := Ok ts;
       on_get_balance := Ok r1; on_get_token_price := Ok r2;
       on_swap_tokens := Ok r3 |} ->
  content r1 = Text c1 :: more1 ->
  content r2 = Text c2 :: more2 ->
  content r3 = Text c3 :: more3 ->
  (run environ stdio_client aexit).1 = Ok tt
  /\ stdout (run environ stdio_client aexit).2
     = "✅ Connected to Ethereum Trading MCP Server" +:+ LF +:+ LF
       +:+ stdout (listing_events (tools ts))
       +:+ "🔍 Getting ETH balance..." +:+ LF
       +:+ "Result: " +:+ text c1 +:+ LF +:+ LF
       +:+ "💰 Getting UNI token price in USD..." +:+ LF
       +:+ "Result: " +:+ text c2 +:+ LF +:+ LF
       +:+ "🔄 Simulating token swap (1 WETH -> USDC)..." +:+ LF
       +:+ "Result: " +:+ text c3 +:+ LF +:+ LF.
Proof.
  intros Hconnect Hresponses H1 H2 H3.
  rewrite run_replay. unfold connect_responses. rewrite Hconnect, Hresponses.
  unfold replay, replay_session, indexed.
  cbn [answered on_session_enter on_initialize on_list_tools on_get_balance
       on_get_token_price on_swap_tokens].
  rewrite H1, H2, H3.
  split; [reflexivity|].
  unfold after, finally. cbn [fst snd app].
  repeat first [ rewrite <- app_assoc | progress cbn [app] ].
  rewrite !stdout_cons. cbn [written_of].
  rewrite stdout_app, !stdout_cons, stdout_nil. cbn [written_of].
  unfold connected_banner, result_line, get_balance_label, get_token_price_label,
    swap_tokens_label.
  rewrite !append_assoc, ?append_empty_r.
  reflexivity.
Qed.

Lemma complete_run_output_witness :
  let r := run ∅ (mock_client (scenario [] [] [])) task_group_exits in
  r.1 = Ok tt
  /\ stdout r.2
     = "✅ Connected to Ethereum Trading MCP Server" +:+ LF +:+ LF
       +:+ stdout (listing_events [ {| name := "get_balance"; description := "x" |} ])
       +:+ "🔍 Getting ETH balance..." +:+ LF
       +:+ "Result: " +:+ "1.5 ETH" +:+ LF +:+ LF
       +:+ "💰 Getting UNI token price in USD..." +:+ LF
       +:+ "Result: " +:+ "7.23 USD" +:+ LF +:+ LF
       +:+ "🔄 Simulating token swap (1 WETH -> USDC)..." +:+ LF
       +:+ "Result: " +:+ "ok" +:+ LF +:+ LF.
Proof.
  apply (complete_run_output ∅ (mock_client (scenario [] [] []))
           task_group_exits (scenario [] [] [])
           {| tools := [ {| name := "get_balance"; description := "x" |} ] |}
           (text_result "1.5 ETH" []) (text_result "7.23 USD" [])
           (text_result "ok" [])
           {| text := "1.5 ETH" |} {| text := "7.23 USD" |} {| text := "ok" |}
           [] [] []);
    reflexivity.
Defined.

(** *** Content items after the first *)

Lemma replay_first_only (aexit : ContextExits) (p : StdioServerParameters)
    (a : Responses) :
  replay aexit p
    (Ok {| on_session_enter := on_session_enter a;
           on_initialize := on_initialize a;
           on_list_tools := on_list_tools a;
           on_get_balance := first_only (on_get_balance a);
           on_get_token_price := first_only (on_get_token_price a);
           on_swap_tokens := first_only (on_swap_tokens a) |})
  = replay aexit p (Ok a).
Proof.
  destruct a as [se ini li gb gt sw].
  unfold replay, replay_session, indexed, first_only.
  cbn [answered on_session_enter on_initialize on_list_tools on_get_balance
       on_get_token_price on_swap_tokens].
  destruct se as [[]|?]; [|reflexivity].
  destruct ini as [[]|?]; [|reflexivity].
  destruct li as [ts|?]; [|reflexivity].
  destruct gb as [[[|[c1|k1] cs1]]|?]; try reflexivity.
  destruct gt as [[[|[c2|k2] cs2]]|?]; try reflexivity.
  destruct sw as [[[|[c3|k3] cs3]]|?]; reflexivity.
Qed.

(** X9.  Of the content of a result the driver uses the first item only:
    against the server that answers alike but cuts every result down to
    its first content item, the run is the same (result, requests,
    output and all). *)
Theorem only_first_content_item_matters
    (environ : gmap string string)
    (stdio_client : StdioServerParameters -> outcome Server)
    (aexit : ContextExits) :
  run environ (map_client first_items stdio_client) aexit = run environ stdio_client aexit.
Proof.
  rewrite !run_replay. unfold connect_responses, map_client.
  destruct (stdio_client (server_params environ)) as [srv|e]; [|reflexivity].
  apply (replay_first_only aexit (server_params environ) (responses srv)).
Qed.

(** *** The banner *)

Lemma replay_banner (aexit : ContextExits) (p : StdioServerParameters) (conn : outcome Responses) :
  if handshaken conn
  then exists rest,
         stdout (replay aexit p conn).2
         = ("✅ Connected to Ethereum Trading MCP Server" +:+ LF +:+ LF) +:+ rest
  else stdout (replay aexit p conn).2 = EmptyString.
Proof.
  destruct conn as [a|e]; [|reflexivity].
  unfold handshaken, replay, replay_session. cbn [answered].
  destruct (on_session_enter a) as [[]|?]; [|reflexivity].
  destruct (on_initialize a) as [[]|?]; [|reflexivity].
  cbn [answered is_Ok andb]. unfold after, finally. cbn [fst snd app].
  rewrite !stdout_cons. cbn [written_of]. eexists. reflexivity.
Qed.

(** X10.  The banner [Connected to Ethereum Trading MCP Server] is printed
    only after a successful handshake, and is then the first thing
    printed: a run whose connection, session or handshake fails prints
    nothing at all. *)
Theorem banner_only_after_handshake
    (environ : gmap string string)
    (stdio_client : StdioServerParameters -> outcome Server)
    (aexit : ContextExits) :
  if handshaken (connect_responses stdio_client (server_params environ))
  then exists rest,
         stdout (run environ stdio_client aexit).2
         = ("✅ Connected to Ethereum Trading MCP Server" +:+ LF +:+ LF) +:+ rest
  else stdout (run environ stdio_client aexit).2 = EmptyString.
Proof. rewrite run_replay. apply replay_banner. Qed.

(** *** The label of a call that fails *)

Lemma last_written_from_prints {A} (acc : option string) (g : A -> string)
    (xs : list A) (s : string) (tr : list Event) :
  last_written_from acc (map (fun x => Stdout (g x)) xs ++ Stdout s :: tr)
  = last_written_from (Some s) tr.
Proof.
  revert acc. induction xs as [|x xs IH]; intros acc; [done|].
  cbn [map app last_written_from]. apply IH.
Qed.

Lemma last_written_from_listing (acc : option string) (ts : list Tool)
    (s : string) (tr : list Event) :
  last_written_from acc (listing_events ts ++ Stdout s :: tr)
  = last_written_from (Some s) tr.
Proof.
  unfold listing_events. cbn [app last_written_from].
  rewrite <- app_assoc. cbn [app]. rewrite last_written_from_prints.
  reflexivity.
Qed.

Lemma replay_failed_call_label (aexit : ContextExits) (p : StdioServerParameters) (a : Responses)
    (tool label : string) (answer : outcome CallToolResult) :
  tool ∈ map fst (tool_calls (replay aexit p (Ok a)).2) ->
  answer_to a tool = Some answer ->
  usable answer = false ->
  label_of tool = Some label ->
  last_written (replay aexit p (Ok a)).2 = Some (label +:+ LF).
Proof.
  unfold answer_to, label_of, last_written, usable.
  destruct (String.eqb_spec tool "get_balance") as [->|_];
    [|destruct (String.eqb_spec tool "get_token_price") as [->|_];
      [|destruct (String.eqb_spec tool "swap_tokens") as [->|_]; [|done]]].
  all: replay_cases a; observe; cbn [map fst]; intros Hissued;
    try (not_issued Hissued); clear Hissued.
  all: intros [= <-]; try congruence.
  all: case_content; try congruence; try discriminate.
  all: intros _ [= <-]; cbn [last_written_from];
    rewrite last_written_from_listing; reflexivity.
Qed.

(** X11.  The label of a call is printed before the call is sent.  So when
    an issued call fails, by an exception of the SDK or by an empty
    content list, the label line of that call is the last thing the run
    printed. *)
Theorem failed_call_leaves_its_label
    (environ : gmap string string)
    (stdio_client : StdioServerParameters -> outcome Server)
    (aexit : ContextExits)
    (srv : Server) (tool label : string) (answer : outcome CallToolResult) :
  stdio_client (server_params environ) = Ok srv ->
  tool ∈ map fst (tool_calls (run environ stdio_client aexit).2) ->
  answer_to (responses srv) tool = Some answer ->
  usable answer = false ->
  label_of tool = Some label ->
  last_written (run environ stdio_client aexit).2 = Some (label +:+ LF).
Proof.
  intros Hconnect. rewrite run_replay. unfold connect_responses.
  rewrite Hconnect. apply replay_failed_call_label.
Qed.

Lemma failed_call_witness :
  last_written
    (run ∅ (mock_client
              (mock_server [] [Ok (text_result "1.5 ETH" []);
                               Raise (SdkError "price feed down")]))
       task_group_exits).2
  = Some ("💰 Getting UNI token price in USD..." +:+ LF).
Proof.
  apply (failed_call_leaves_its_label ∅
           (mock_client
              (mock_server [] [Ok (text_result "1.5 ETH" []);
                               Raise (SdkError "price feed down")]))
           task_group_exits
           (mock_server [] [Ok (text_result "1.5 ETH" []);
                            Raise (SdkError "price feed down")])
           "get_token_price" "💰 Getting UNI token price in USD..."
           (Raise (SdkError "price feed down"))).
  - reflexivity.
  - vm_compute. apply list_elem_of_further, list_elem_of_here.
  - reflexivity.
  - reflexivity.
  - reflexivity.
Defined.

(** *** Where an exception of [main] comes from *)

Lemma replay_exception_origin (aexit : ContextExits) (p : StdioServerParameters)
    (conn : outcome Responses) (e' : exn) :
  (replay aexit p conn).1 = Raise e' ->
  exists e,
    e' = reraised aexit (exits (replay aexit p conn).2) e
    /\ (thrown (replay aexit p conn).2 = [e]
        \/ ((e = IndexError \/ e = AttributeError)
            /\ thrown (replay aexit p conn).2 = []
            /\ calls_issued conn <> 0)).
Proof.
  destruct conn as [a|e0].
  - unfold calls_issued, usable.
    replay_cases a; cbn [is_Ok andb]; observe; intros [= <-];
      eexists; (split; [reflexivity|]);
      first [ by left | right; split; [by left|done] | right; split; [by right|done] ].
  - intros [= <-]. exists e0. split; [reflexivity|by left].
Qed.

(** X12.  An exception [main] ends with is an exception raised inside the
    run, as the exits of the blocks left re-raise it, and that exception
    has one of two origins: it is the one exception the SDK raised in the
    run, or it is raised by [result.content[0].text] ([IndexError] on an
    empty content list, [AttributeError] on a first item without a text)
    in a run where the SDK raised nothing and at least one tool call was
    issued.  The driver raises nothing else of its own. *)
Theorem exception_origin
    (environ : gmap string string)
    (stdio_client : StdioServerParameters -> outcome Server)
    (aexit : ContextExits) (e' : exn) :
  (run environ stdio_client aexit).1 = Raise e' ->
  exists e,
    e' = reraised aexit (exits (run environ stdio_client aexit).2) e
    /\ (thrown (run environ stdio_client aexit).2 = [e]
        \/ ((e = IndexError \/ e = AttributeError)
            /\ thrown (run environ stdio_client aexit).2 = []
            /\ calls_issued (connect_responses stdio_client (server_params environ))
               <> 0)).
Proof. rewrite run_replay. apply replay_exception_origin. Qed.

Lemma exception_origin_witness :
  let client := mock_client (mock_server [] [Ok {| content := [NonText "image"] |}]) in
  let r := run ∅ client task_group_exits in
  exists e,
    in_group (in_group AttributeError) = reraised task_group_exits (exits r.2) e
    /\ (thrown r.2 = [e]
        \/ ((e = IndexError \/ e = AttributeError)
            /\ thrown r.2 = []
            /\ calls_issued (connect_responses client (server_params ∅)) <> 0)).
Proof.
  apply (exception_origin ∅
           (mock_client (mock_server [] [Ok {| content := [NonText "image"] |}]))
           task_group_exits (in_group (in_group AttributeError))).
  reflexivity.
Defined.
